(** * Seller "View Profile" page (src/app/seller/view-profile/page.tsx)

    A shallow embedding of the React component [ViewProfilePage]: its three
    pieces of view state, the fetch-on-mount effect [fetchProfile] with its
    try / catch / finally, the [handleLogout] handler and the JSX tree the
    component returns.

    Conventions.
    - A JavaScript string is a [string] holding the bytes of its UTF-8
      encoding: a code unit below 0x80 is one byte, another code unit of the
      basic plane two or three bytes (an unpaired surrogate in the three-byte
      form, as in WTF-8), a surrogate pair four bytes. Equality, emptiness
      and concatenation of JavaScript strings are those of the byte strings;
      [s || d] and the test [s ? _ : _] on a string go through [Js.truthy]
      (the empty string is falsy); [charAt] counts UTF-16 code units
      ([Js.charAt0]).
    - [null] / [undefined] / an absent optional field are [None].
    - The collaborators that the page imports (router, toast, console,
      localStorage, getSellerProfile, useAuth) are not part of this file's
      source: each call to one of them is recorded, in program order, as an
      [Event] of the run; what [localStorage.getItem] answers and how the
      promise of [getSellerProfile] settles are inputs ([Env]). *)

From Stdlib Require Import String List Bool Ascii NArith.
Import ListNotations.
Open Scope string_scope.
Open Scope list_scope.

(** ** JavaScript truthiness on strings *)

Module Js.

(** [!!s] for a string [s]. *)
Definition truthy (s : string) : bool :=
  match s with
  | EmptyString => false
  | String _ _ => true
  end.

(** [!!v] for [v : string | null | undefined]. *)
Definition truthy_opt (v : option string) : bool :=
  match v with
  | Some s => truthy s
  | None => false
  end.

(** [v || d] for [v : string | null | undefined] and a string [d]. *)
Definition or_else (v : option string) (d : string) : string :=
  match v with
  | Some s => if truthy s then s else d
  | None => d
  end.

(** The high surrogate of the code point above the basic plane whose UTF-8
    encoding is the four bytes [b0 b1 b2 b3], as a one-unit string (the
    three-byte form of a surrogate): the code point is
    [(b0 mod 8) * 2^18 + (b1 mod 64) * 2^12 + (b2 mod 64) * 2^6 + b3 mod 64],
    and its high surrogate is [0xD800 + (code point - 0x10000) / 2^10]. *)
Definition highSurrogate (b0 b1 b2 b3 : ascii) : string :=
  let cp := ((N_of_ascii b0 mod 8) * 262144
             + (N_of_ascii b1 mod 64) * 4096
             + (N_of_ascii b2 mod 64) * 64
             + N_of_ascii b3 mod 64)%N in
  let h := ((cp - 65536) / 1024)%N in
  String (ascii_of_N 237)
    (String (ascii_of_N (160 + h / 64))
       (String (ascii_of_N (128 + h mod 64)) EmptyString)).

(** [s.charAt(0)]: the first UTF-16 code unit of [s] as a string, and the
    empty string when [s] is empty. The lead byte tells how the first code
    unit is stored: in one byte (below 0xC0), in two (below 0xE0) or in
    three (below 0xF0) bytes, which are then the result; a lead byte from
    0xF0 on starts the four bytes of a surrogate pair, whose first unit is
    its high surrogate. (A byte string cut short inside a sequence encodes
    no JavaScript string; the bytes there are kept.) *)
Definition charAt0 (s : string) : string :=
  match s with
  | EmptyString => EmptyString
  | String b0 rest =>
      if (N_of_ascii b0 <? 192)%N then String b0 EmptyString
      else if (N_of_ascii b0 <? 224)%N then substring 0 2 s
      else if (N_of_ascii b0 <? 240)%N then substring 0 3 s
      else match rest with
           | String b1 (String b2 (String b3 _)) => highSurrogate b0 b1 b2 b3
           | _ => s
           end
  end.

End Js.

(** ** Data model *)

(** [interface SellerProfile] (lines 17-26). *)
Record SellerProfile : Type := mkSellerProfile {
  id : string;
  fullName : string;
  email : string;
  phone : option string;
  title : option string;
  companyName : option string;
  website : option string;
  location : option string
}.

(** The value a rejected [getSellerProfile()] carries: an error object with
    its [message]. *)
Record JsError : Type := mkJsError { message : string }.

(** The three [useState] cells (lines 29-31). *)
Record PageState : Type := mkPageState {
  profile : option SellerProfile;
  loading : bool;
  error : option string
}.

(** [useState(null)], [useState(true)], [useState(null)]. *)
Definition initialState : PageState :=
  {| profile := None; loading := true; error := None |}.

(** The argument object of [toast]. *)
Record ToastArgs : Type := mkToast {
  toast_title : string;
  toast_description : string;
  toast_variant : string
}.

(** Calls to the collaborators, as they are observed from outside. *)
Inductive Event : Type :=
| ConsoleError (msg : string)
| ConsoleErrorWith (msg : string) (err : JsError)
| ConsoleLog (msg : string)
| ConsoleLogWith (msg : string) (data : SellerProfile)
| RouterPush (path : string)
| CallGetSellerProfile
| Toast (args : ToastArgs)
| CallLogout
| WindowReload.

(** Modelled from the spec: the session held by the authentication context
    ([useAuth] of "@/contexts/auth-context", which is not among the sources).
    The spec (section 6) says only that the collaborator "exposes a logout
    operation that clears session state": the session is either some opaque
    signed-in value or cleared. *)
Definition AuthSession : Type := option string.

Definition clearedSession : AuthSession := None.

(** Everything a handler of the page can touch. *)
Record World : Type := mkWorld {
  page : PageState;
  auth : AuthSession;
  events : list Event
}.

(** How the awaited promise of [getSellerProfile()] settles. *)
Inductive FetchOutcome : Type :=
| Resolved (data : SellerProfile)
| Rejected (err : JsError).

(** The inputs of one run of the effect. *)
Record Env : Type := mkEnv {
  windowDefined : bool;           (* typeof window !== "undefined" *)
  storedToken : option string;    (* localStorage.getItem("token") *)
  fetchOutcome : FetchOutcome     (* await getSellerProfile() *)
}.

(** ** Statements with [return], [throw] and [try]/[catch]/[finally] *)

Module Stmt.

(** How a statement list completes. *)
Inductive Completion (A : Type) : Type :=
| Normal (a : A)
| Returned
| Thrown (e : JsError).

Arguments Normal {A} a.
Arguments Returned {A}.
Arguments Thrown {A} e.

Definition M (A : Type) : Type := World -> Completion A * World.

Definition ret {A} (a : A) : M A := fun w => (Normal a, w).

Definition bind {A B} (c : M A) (k : A -> M B) : M B :=
  fun w =>
    match c w with
    | (Normal a, w') => k a w'
    | (Returned, w') => (Returned, w')
    | (Thrown e, w') => (Thrown e, w')
    end.

(** [return] *)
Definition return_ {A} : M A := fun w => (Returned, w).

(** [throw e] *)
Definition throw {A} (e : JsError) : M A := fun w => (Thrown e, w).

(** [try { body } catch (err) { handler err } finally { fin }]:
    the handler runs when the body throws; the finally block runs
    whatever happened, and when it completes normally the completion of
    the try (or of the handler) stands. *)
Definition try_catch_finally
    (body : M unit) (handler : JsError -> M unit) (fin : M unit) : M unit :=
  fun w =>
    let r :=
      match body w with
      | (Thrown e, w') => handler e w'
      | r => r
      end in
    match fin (snd r) with
    | (Normal _, w'') => (fst r, w'')
    | r' => r'
    end.

Definition emit (e : Event) : M unit :=
  fun w => (Normal tt,
            {| page := page w; auth := auth w; events := events w ++ [e] |}).

Definition modify_page (f : PageState -> PageState) : M unit :=
  fun w => (Normal tt,
            {| page := f (page w); auth := auth w; events := events w |}).

Definition modify_auth (f : AuthSession -> AuthSession) : M unit :=
  fun w => (Normal tt,
            {| page := page w; auth := f (auth w); events := events w |}).

End Stmt.

Import Stmt.

Declare Scope stmt_scope.
Delimit Scope stmt_scope with stmt.
Notation "x <- c ;; k" := (bind c (fun x => k))
  (at level 61, c at next level, right associativity) : stmt_scope.
Notation "c ;; k" := (bind c (fun _ => k))
  (at level 61, right associativity) : stmt_scope.
Open Scope stmt_scope.

(** ** The state setters and the collaborators *)

Definition setProfile (p : option SellerProfile) : M unit :=
  modify_page (fun s => {| profile := p; loading := loading s; error := error s |}).

Definition setLoading (b : bool) : M unit :=
  modify_page (fun s => {| profile := profile s; loading := b; error := error s |}).

Definition setError (e : option string) : M unit :=
  modify_page (fun s => {| profile := profile s; loading := loading s; error := e |}).

Definition routerPush (path : string) : M unit := emit (RouterPush path).

Definition toast (args : ToastArgs) : M unit := emit (Toast args).

(** [await getSellerProfile()]: the call is made, then the promise settles. *)
Definition awaitGetSellerProfile (env : Env) : M SellerProfile :=
  emit CallGetSellerProfile ;;
  match fetchOutcome env with
  | Resolved data => ret data
  | Rejected err => throw err
  end.

(** Modelled from the spec: [logout] of the authentication context, which is
    not among the sources; it "clears session state" (spec, section 6). *)
Definition logout : M unit :=
  emit CallLogout ;;
  modify_auth (fun _ => clearedSession).

(** ** The effect (lines 35-80) *)

(** The condition of the [if] at lines 66-70. *)
Definition isAuthFailure (msg : string) : bool :=
  (msg =? "Authentication expired")
  || (msg =? "No authentication token found")
  || (msg =? "Failed to fetch profile: 403").

(** [fetchProfile] (lines 39-77). *)
Definition fetchProfile (env : Env) : M unit :=
  try_catch_finally
    (* try *)
    (setLoading true ;;
     let token := storedToken env in
     if negb (Js.truthy_opt token) then
       emit (ConsoleError
               "View Profile - No authentication token found, redirecting to login") ;;
       routerPush "/seller/login?error=no_token" ;;
       return_
     else
       emit (ConsoleLog "View Profile - Attempting to fetch profile") ;;
       data <- awaitGetSellerProfile env ;;
       emit (ConsoleLogWith "Profile data:" data) ;;
       setProfile (Some data) ;;
       setError None)
    (* catch (err) *)
    (fun err =>
       emit (ConsoleErrorWith "Error fetching profile:" err) ;;
       setError (Some (Js.or_else (Some (message err)) "Failed to load profile")) ;;
       toast {| toast_title := "Error";
                toast_description :=
                  Js.or_else (Some (message err)) "Failed to load profile";
                toast_variant := "destructive" |} ;;
       if isAuthFailure (message err) then
         emit (ConsoleLog "View Profile - Authentication error, redirecting to login") ;;
         routerPush "/seller/login?error=auth_failed"
       else ret tt)
    (* finally *)
    (setLoading false).

(** The callback given to [useEffect] (lines 35-80). *)
Definition mountEffect (env : Env) : M unit :=
  if negb (windowDefined env) then return_
  else fetchProfile env.

(** [handleLogout] (lines 82-85). *)
Definition handleLogout : M unit :=
  logout ;;
  routerPush "/seller/login".

(** ** The rendered tree (lines 87-307) *)

(** What an [onClick] of the page does. *)
Inductive Action : Type :=
| GoTo (path : string)     (* () => router.push(path) *)
| SignOut                  (* handleLogout *)
| ReloadPage.              (* () => window.location.reload() *)

(** JSX elements; an absent [className] is the empty string. *)
#[local] Set Warnings "-register-all".
Inductive Elem : Type :=
| Txt (s : string)
| Tag (name className : string) (kids : list Elem)
| Frag (kids : list Elem)
| Button (variant : option string) (className : string)
         (onClick : option Action) (kids : list Elem)
| Skeleton (className : string)
| Image (src alt : string) (width height : nat) (className : string)
| Link (href : string) (kids : list Elem)
| Icon (name className : string)
| Toaster
| SellerProtectedRoute (kids : list Elem).

(** The text nodes of a tree, in document order: what the user reads. *)
Fixpoint texts (e : Elem) : list string :=
  match e with
  | Txt s => [s]
  | Tag _ _ kids => flat_map texts kids
  | Frag kids => flat_map texts kids
  | Button _ _ _ kids => flat_map texts kids
  | Skeleton _ => []
  | Image _ _ _ _ _ => []
  | Link _ kids => flat_map texts kids
  | Icon _ _ => []
  | Toaster => []
  | SellerProtectedRoute kids => flat_map texts kids
  end.

(** The click handlers bound in a tree, in document order. *)
Fixpoint handlers (e : Elem) : list Action :=
  match e with
  | Txt _ => []
  | Tag _ _ kids => flat_map handlers kids
  | Frag kids => flat_map handlers kids
  | Button _ _ (Some a) kids => a :: flat_map handlers kids
  | Button _ _ None kids => flat_map handlers kids
  | Skeleton _ => []
  | Image _ _ _ _ _ => []
  | Link _ kids => flat_map handlers kids
  | Icon _ _ => []
  | Toaster => []
  | SellerProtectedRoute kids => flat_map handlers kids
  end.

(** What a click on a control runs. *)
Definition click (a : Action) : M unit :=
  match a with
  | GoTo path => routerPush path
  | SignOut => handleLogout
  | ReloadPage => emit WindowReload
  end.

Section Render.

Variable st : PageState.

(** [profile?.fullName] and the like. *)
Definition profile_fullName : option string := option_map fullName (profile st).
Definition profile_email : option string := option_map email (profile st).
Definition profile_title : option string :=
  match profile st with Some p => title p | None => None end.
Definition profile_companyName : option string :=
  match profile st with Some p => companyName p | None => None end.

(** Lines 91-144. *)
Definition sidebar : Elem :=
  Tag "div" "w-64 bg-white border-r border-gray-200 p-6 flex flex-col"
    [ Tag "div" "mb-8"
        [ Link "/seller/dashboard"
            [ Image "/logo.svg" "CIM Amplify Logo" 150 50 "h-auto" ] ];
      Tag "nav" "flex-1 space-y-6"
        [ Button (Some "ghost") "w-full justify-start gap-3 font-normal"
            (Some (GoTo "/seller/dashboard"))
            [ Icon "HandshakeIcon" "h-5 w-5"; Tag "span" "" [ Txt "My Deals" ] ];
          Button (Some "secondary")
            "w-full justify-start gap-3 font-normal bg-teal-100 text-teal-700 hover:bg-teal-200"
            None
            [ Icon "Pencil" "h-5 w-5"; Tag "span" "" [ Txt "View Profile" ] ];
          Button (Some "ghost") "w-full justify-start gap-3 font-normal"
            (Some (GoTo "/seller/history"))
            [ Icon "History" "h-5 w-5"; Tag "span" "" [ Txt "Off Market" ] ];
          Button (Some "ghost")
            "w-full justify-start gap-3 font-normal text-red-600 hover:text-red-700 hover:bg-red-50 mt-auto"
            (Some SignOut)
            [ Icon "LogOut" "h-5 w-5"; Tag "span" "" [ Txt "Sign Out" ] ] ] ].

(** Lines 156-172: the user corner of the header. *)
Definition headerUser : Elem :=
  if loading st then
    Frag [ Skeleton "h-5 w-32";
           Skeleton "h-4 w-24";
           Skeleton "h-10 w-10 rounded-full" ]
  else
    Frag [ Tag "div" "text-right"
             [ Tag "div" "font-medium" [ Txt (Js.or_else profile_fullName "User") ] ];
           Tag "div"
             "h-10 w-10 rounded-full bg-gray-300 flex items-center justify-center text-white font-medium"
             [ Txt (match profile st with
                    | Some p => if Js.truthy (fullName p)
                                then Js.charAt0 (fullName p) else "U"
                    | None => "U"
                    end) ] ].

(** Lines 149-175. *)
Definition header : Elem :=
  Tag "header" "bg-white border-b border-gray-200 p-6 flex justify-between items-center"
    [ Tag "h1" "text-4xl font-semibold text-gray-800" [ Txt "Profile" ];
      Tag "div" "flex items-center gap-6"
        [ Tag "div" "flex items-center gap-3" [ headerUser ] ] ].

End Render.

(** Lines 180-199: the skeleton. *)
Definition skeletonPanel : Elem :=
  Tag "div" "bg-white rounded-lg shadow p-6"
    [ Tag "div" "flex gap-6"
        [ Skeleton "h-40 w-40 rounded-lg";
          Tag "div" "flex-1 space-y-4"
            [ Skeleton "h-8 w-64";
              Skeleton "h-6 w-32";
              Tag "div" "space-y-2"
                [ Skeleton "h-5 w-48"; Skeleton "h-5 w-40" ] ] ];
      Tag "div" "mt-8 space-y-4"
        [ Skeleton "h-6 w-48";
          Tag "div" "grid grid-cols-2 gap-4"
            [ Skeleton "h-5 w-full"; Skeleton "h-5 w-full" ] ] ].

(** Lines 201-209: the error panel, for the error text [err]. *)
Definition errorPanel (err : string) : Elem :=
  Tag "div" "bg-white rounded-lg shadow p-6"
    [ Tag "div" "text-center py-8"
        [ Tag "div" "text-red-500 text-lg mb-2" [ Txt "Error loading profile" ];
          Tag "p" "text-gray-600" [ Txt err ];
          Button None "mt-4" (Some ReloadPage) [ Txt "Try Again" ] ] ].

Section RenderContent.

Variable st : PageState.

(** Lines 211-300: the profile panel. The blocks for the phone (lines
    249-256) and for the website (lines 278-296) are commented out in the
    source and render nothing. *)
Definition profilePanel : Elem :=
  Tag "div" "bg-white rounded-lg shadow"
    [ (* Profile header *)
      Tag "div" "p-6 flex gap-6"
        [ Tag "div" "h-40 w-40 rounded-lg bg-gray-200 overflow-hidden"
            [ Image "/dp.jpg" (Js.or_else (profile_fullName st) "Profile")
                160 160 "object-cover w-full h-full" ];
          Tag "div" "flex-1"
            [ Tag "div" "flex items-center gap-2 mb-1"
                [ Tag "h2" "text-2xl font-bold"
                    [ Txt (Js.or_else (profile_fullName st) "User") ];
                  Tag "button" "text-gray-400 hover:text-gray-600" [] ];
              Tag "div" "flex items-center gap-2 mb-4"
                [ Tag "div" "text-teal-600"
                    [ Txt (Js.or_else (profile_title st) "CEO") ];
                  Tag "button" "text-gray-400 hover:text-gray-600" [] ];
              Tag "div" "space-y-2"
                [ Tag "div" "flex items-center gap-2"
                    [ Tag "div" "text-gray-600"
                        [ Tag "span" "inline-block w-5" [ Txt "ðŸ“§" ];
                          Txt " ";
                          Txt (Js.or_else (profile_email st) "Email not provided") ];
                      Tag "button" "text-gray-400 hover:text-gray-600" [] ] ] ] ];
      (* Company information *)
      Tag "div" "border-t border-gray-200 p-6"
        [ Tag "h3" "text-lg font-semibold mb-4" [ Txt "Company Information" ];
          Tag "div" "grid grid-cols-2 gap-6"
            [ Tag "div" ""
                [ Tag "div" "text-sm text-gray-500 mb-1" [ Txt "Company Name:" ];
                  Tag "div" "flex items-center gap-2"
                    [ Tag "div" "font-medium"
                        [ Txt (Js.or_else (profile_companyName st) "Not provided") ];
                      Tag "button" "text-gray-400 hover:text-gray-600"
                        [ Icon "Pencil" "h-4 w-4" ] ] ];
              Tag "div" ""
                [ Tag "div" "text-sm text-gray-500 mb-1" [] ] ] ] ].

(** Lines 179-301: the nested conditional that picks the body. *)
Definition content : Elem :=
  if loading st then skeletonPanel
  else match error st with
       | Some err => if Js.truthy err then errorPanel err else profilePanel
       | None => profilePanel
       end.

(** Lines 87-307: what [ViewProfilePage] returns. *)
Definition render : Elem :=
  SellerProtectedRoute
    [ Tag "div" "flex min-h-screen bg-gray-50"
        [ sidebar;
          Tag "div" "flex-1"
            [ header st;
              Tag "div" "p-8" [ content ] ] ];
      Toaster ].

End RenderContent.

(** ** Running the handlers *)

(** The page state and the calls made by a run of [c] that starts in [w]. *)
Definition pageAfter (c : M unit) (w : World) : PageState := page (snd (c w)).
Definition eventsAfter (c : M unit) (w : World) : list Event := events (snd (c w)).
Definition completionOf (c : M unit) (w : World) : Completion unit := fst (c w).

(** The calls made during the run itself: those recorded after the ones the
    run started with. *)
Definition callsDuring (c : M unit) (w : World) : list Event :=
  skipn (length (events w)) (eventsAfter c w).

(** A run that was mounted a moment ago: the initial state, nothing called yet. *)
Definition freshWorld (a : AuthSession) : World :=
  {| page := initialState; auth := a; events := [] |}.

(** Is this call a navigation request / a notification? *)
Definition isPush (e : Event) : bool :=
  match e with RouterPush _ => true | _ => false end.

Definition isToast (e : Event) : bool :=
  match e with Toast _ => true | _ => false end.

(** The text both [setError] and [toast] receive in the catch block. *)
Definition shownMessage (err : JsError) : string :=
  Js.or_else (Some (message err)) "Failed to load profile".

(** The notification of the catch block. *)
Definition errorToast (err : JsError) : ToastArgs :=
  {| toast_title := "Error";
     toast_description := shownMessage err;
     toast_variant := "destructive" |}.

(** ** Sample inputs *)

Definition janeDoe : SellerProfile :=
  {| id := "seller-1"; fullName := "Jane Doe"; email := "jane@x.com";
     phone := None; title := None; companyName := None;
     website := None; location := None |}.

(** A response whose name is the empty string. *)
Definition namelessSeller : SellerProfile :=
  {| id := "seller-2"; fullName := ""; email := "jane@x.com";
     phone := None; title := None; companyName := None;
     website := None; location := None |}.

Definition envNoToken : Env :=
  {| windowDefined := true; storedToken := None;
     fetchOutcome := Resolved janeDoe |}.

Definition envResolved (data : SellerProfile) : Env :=
  {| windowDefined := true; storedToken := Some "jwt";
     fetchOutcome := Resolved data |}.

Definition envRejected (msg : string) : Env :=
  {| windowDefined := true; storedToken := Some "jwt";
     fetchOutcome := Rejected {| message := msg |} |}.

(** The same profile with another [website]. *)
Definition withWebsite (site : option string) (p : SellerProfile) : SellerProfile :=
  {| id := id p; fullName := fullName p; email := email p; phone := phone p;
     title := title p; companyName := companyName p;
     website := site; location := location p |}.

(** A field [v] whose fallback text is [d] is displayed as [shown]: the
    fallback when [v] is absent or empty, [v] itself otherwise. *)
Definition fallsBackTo (v : option string) (d shown : string) : Prop :=
  ((v = None \/ v = Some "") -> shown = d)
  /\ (forall s, v = Some s -> s <> "" -> shown = s).

(** ** The run around the [await], runs in sequence, what a tree offers *)

(** Is this call the call of the profile service? *)
Definition isFetchCall (e : Event) : bool :=
  match e with CallGetSellerProfile => true | _ => false end.

(** The catch block of [fetchProfile] (lines 56-73), for the caught [err]. *)
Definition catchBlock (err : JsError) : M unit :=
  emit (ConsoleErrorWith "Error fetching profile:" err) ;;
  setError (Some (Js.or_else (Some (message err)) "Failed to load profile")) ;;
  toast {| toast_title := "Error";
           toast_description :=
             Js.or_else (Some (message err)) "Failed to load profile";
           toast_variant := "destructive" |} ;;
  if isAuthFailure (message err) then
    emit (ConsoleLog "View Profile - Authentication error, redirecting to login") ;;
    routerPush "/seller/login?error=auth_failed"
  else ret tt.

(** [fetchProfile] with a token in storage, up to the point where it
    suspends on [await getSellerProfile()] (lines 41-52): the call is made
    and the promise is pending. *)
Definition untilAwait : M unit :=
  setLoading true ;;
  emit (ConsoleLog "View Profile - Attempting to fetch profile") ;;
  emit CallGetSellerProfile.

(** The rest of [fetchProfile], from the moment the promise settles
    (lines 52-76): still inside the [try], so a rejection goes to the catch
    block and the [finally] runs last. *)
Definition afterAwait (env : Env) : M unit :=
  try_catch_finally
    (data <- match fetchOutcome env with
             | Resolved data => ret data
             | Rejected err => throw err
             end ;;
     emit (ConsoleLogWith "Profile data:" data) ;;
     setProfile (Some data) ;;
     setError None)
    catchBlock
    (setLoading false).

(** The effect run once for each environment of the list, every run starting
    in the world the one before it left (React runs the effect again when
    its dependency [router] changes). *)
Definition runEffects (envs : list Env) (w : World) : World :=
  fold_left (fun w' env => snd (mountEffect env w')) envs w.

(** The body is the error panel: the test of lines 179 and 200. *)
Definition showsErrorPanel (st : PageState) : bool :=
  negb (loading st) && Js.truthy_opt (error st).

(** The [alt] texts of the images of a tree, in document order. *)
Fixpoint alts (e : Elem) : list string :=
  match e with
  | Txt _ => []
  | Tag _ _ kids => flat_map alts kids
  | Frag kids => flat_map alts kids
  | Button _ _ _ kids => flat_map alts kids
  | Skeleton _ => []
  | Image _ alt _ _ _ => [alt]
  | Link _ kids => flat_map alts kids
  | Icon _ _ => []
  | Toaster => []
  | SellerProtectedRoute kids => flat_map alts kids
  end.

(** The texts every state shows: the sidebar labels and the page title. *)
Definition fixedTexts : list string :=
  [ "My Deals"; "View Profile"; "Off Market"; "Sign Out"; "Profile" ].

(** A profile whose name starts with a letter outside ASCII. *)
Definition lukasz : SellerProfile :=
  {| id := "seller-3"; fullName := "Łukasz Nowak"; email := "lukasz@x.com";
     phone := None; title := None; companyName := None;
     website := None; location := None |}.

(** The worlds the page is rendered in: the fresh mount; from a world of the
    page, the world a run of the effect ends in, the world in which a run on
    the client with a token waits for the profile service, and the world
    after a click on a control. *)
Inductive Reachable : World -> Prop :=
| reach_mount (a : AuthSession) :
    Reachable (freshWorld a)
| reach_effect (env : Env) (w : World) :
    Reachable w -> Reachable (snd (mountEffect env w))
| reach_pending (env : Env) (w : World) :
    Reachable w ->
    windowDefined env = true ->
    Js.truthy_opt (storedToken env) = true ->
    Reachable (snd (untilAwait w))
| reach_click (a : Action) (w : World) :
    Reachable w -> Reachable (snd (click a w)).

(** * Properties *)

(** ** The three paths of [fetchProfile], as equations *)

Ltac run_stmt :=
  unfold fetchProfile, try_catch_finally, awaitGetSellerProfile, bind, ret,
    return_, throw, routerPush, toast, setLoading, setProfile, setError,
    emit, modify_page, modify_auth; simpl.

Lemma fetchProfile_no_token (env : Env) (w : World) :
  Js.truthy_opt (storedToken env) = false ->
  fetchProfile env w =
    (Returned,
     {| page := {| profile := profile (page w); loading := false;
                   error := error (page w) |};
        auth := auth w;
        events := events w ++
          [ ConsoleError
              "View Profile - No authentication token found, redirecting to login";
            RouterPush "/seller/login?error=no_token" ] |}).
Proof.
  intros Htok. run_stmt. rewrite Htok. simpl.
  rewrite <- app_assoc. reflexivity.
Qed.

Lemma fetchProfile_resolved (env : Env) (w : World) (data : SellerProfile) :
  Js.truthy_opt (storedToken env) = true ->
  fetchOutcome env = Resolved data ->
  fetchProfile env w =
    (Normal tt,
     {| page := {| profile := Some data; loading := false; error := None |};
        auth := auth w;
        events := events w ++
          [ ConsoleLog "View Profile - Attempting to fetch profile";
            CallGetSellerProfile;
            ConsoleLogWith "Profile data:" data ] |}).
Proof.
  intros Htok Hres. run_stmt. rewrite Htok, Hres. simpl.
  rewrite <- !app_assoc. reflexivity.
Qed.

Lemma fetchProfile_rejected (env : Env) (w : World) (err : JsError) :
  Js.truthy_opt (storedToken env) = true ->
  fetchOutcome env = Rejected err ->
  fetchProfile env w =
    (Normal tt,
     {| page := {| profile := profile (page w); loading := false;
                   error := Some (shownMessage err) |};
        auth := auth w;
        events := events w ++
          [ ConsoleLog "View Profile - Attempting to fetch profile";
            CallGetSellerProfile;
            ConsoleErrorWith "Error fetching profile:" err;
            Toast (errorToast err) ] ++
          (if isAuthFailure (message err)
           then [ ConsoleLog "View Profile - Authentication error, redirecting to login";
                  RouterPush "/seller/login?error=auth_failed" ]
           else []) |}).
Proof.
  intros Htok Hrej. run_stmt. rewrite Htok, Hrej. simpl.
  destruct (isAuthFailure (message err)); simpl;
    rewrite <- !app_assoc; reflexivity.
Qed.

(** Every run takes exactly one of the three paths. *)
Lemma fetchProfile_paths (env : Env) :
  Js.truthy_opt (storedToken env) = false
  \/ (Js.truthy_opt (storedToken env) = true
      /\ exists data, fetchOutcome env = Resolved data)
  \/ (Js.truthy_opt (storedToken env) = true
      /\ exists err, fetchOutcome env = Rejected err).
Proof.
  destruct (Js.truthy_opt (storedToken env)); [right | left; reflexivity].
  destruct (fetchOutcome env) as [data | err]; [left | right]; eauto.
Qed.

(** On the client the effect is [fetchProfile]. *)
Lemma mountEffect_client (env : Env) :
  windowDefined env = true -> mountEffect env = fetchProfile env.
Proof. intros H. unfold mountEffect. rewrite H. reflexivity. Qed.

(** ** Facts about the message tests *)

Lemma truthy_nonempty (s : string) : Js.truthy s = true <-> s <> "".
Proof. destruct s; simpl; split; congruence. Qed.

Lemma or_else_nonempty (s d : string) : s <> "" -> Js.or_else (Some s) d = s.
Proof. destruct s; simpl; congruence. Qed.

Lemma isAuthFailure_iff (msg : string) :
  isAuthFailure msg = true <->
  msg = "Authentication expired"
  \/ msg = "No authentication token found"
  \/ msg = "Failed to fetch profile: 403".
Proof.
  unfold isAuthFailure. rewrite !orb_true_iff, !String.eqb_eq. tauto.
Qed.

Lemma isAuthFailure_nonempty (msg : string) :
  isAuthFailure msg = true -> msg <> "".
Proof.
  rewrite isAuthFailure_iff. intros [H | [H | H]]; subst; discriminate.
Qed.

Lemma shownMessage_truthy (err : JsError) : Js.truthy (shownMessage err) = true.
Proof. unfold shownMessage. destruct (message err); reflexivity. Qed.

(** ** [charAt(0)] *)

(** The avatar letters of the sample names: one byte, two bytes, three
    bytes, and the high surrogate D83D of a pair. *)
Example charAt0_samples :
  Js.charAt0 "Jane Doe" = "J"
  /\ Js.charAt0 "Łukasz Nowak" = "Ł"
  /\ Js.charAt0 "€uro Ltd" = "€"
  /\ Js.charAt0 "" = ""
  /\ map N_of_ascii (list_ascii_of_string (Js.charAt0 "😀 Ltd"))
     = [ 237%N; 160%N; 189%N ].
Proof. repeat split. Qed.

(** A name that starts with a byte below 0x80 has that character as its
    first code unit. *)
Lemma charAt0_ascii (c : ascii) (rest : string) :
  (N_of_ascii c < 128)%N -> Js.charAt0 (String c rest) = String c "".
Proof.
  intros H. unfold Js.charAt0.
  assert (Hlt : (N_of_ascii c <? 192)%N = true)
    by (apply N.ltb_lt; eapply N.lt_trans; [exact H | reflexivity]).
  rewrite Hlt. reflexivity.
Qed.

(** ** The three bodies are different trees *)

Lemma skeleton_not_error (err : string) : skeletonPanel <> errorPanel err.
Proof. unfold skeletonPanel, errorPanel. discriminate. Qed.

Lemma skeleton_not_profile (st : PageState) : skeletonPanel <> profilePanel st.
Proof. unfold skeletonPanel, profilePanel. discriminate. Qed.

Lemma error_not_profile (err : string) (st : PageState) :
  errorPanel err <> profilePanel st.
Proof. unfold errorPanel, profilePanel. discriminate. Qed.

(** The skeleton holds no text at all; the error panel holds its heading,
    the error text and the label of the retry button. *)
Lemma texts_skeletonPanel : texts skeletonPanel = [].
Proof. reflexivity. Qed.

Lemma texts_errorPanel (err : string) :
  texts (errorPanel err) = [ "Error loading profile"; err; "Try Again" ].
Proof. reflexivity. Qed.

Lemma texts_profilePanel (st : PageState) :
  texts (profilePanel st) =
    [ Js.or_else (profile_fullName st) "User";
      Js.or_else (profile_title st) "CEO";
      "ðŸ“§"; " ";
      Js.or_else (profile_email st) "Email not provided";
      "Company Information"; "Company Name:";
      Js.or_else (profile_companyName st) "Not provided" ].
Proof. reflexivity. Qed.

(** ** Calls of a run *)

Lemma skipn_length_app {A : Type} (l l' : list A) :
  skipn (length l) (l ++ l') = l'.
Proof. induction l as [| x l IH]; simpl; auto. Qed.

Lemma callsDuring_of_append (c : M unit) (w : World) (calls : list Event) :
  eventsAfter c w = events w ++ calls -> callsDuring c w = calls.
Proof.
  intros H. unfold callsDuring. rewrite H. apply skipn_length_app.
Qed.

Lemma callsDuring_no_token (env : Env) (w : World) :
  Js.truthy_opt (storedToken env) = false ->
  callsDuring (fetchProfile env) w =
    [ ConsoleError
        "View Profile - No authentication token found, redirecting to login";
      RouterPush "/seller/login?error=no_token" ].
Proof.
  intros Htok. apply callsDuring_of_append. unfold eventsAfter.
  rewrite fetchProfile_no_token by exact Htok. reflexivity.
Qed.

Lemma callsDuring_resolved (env : Env) (w : World) (data : SellerProfile) :
  Js.truthy_opt (storedToken env) = true ->
  fetchOutcome env = Resolved data ->
  callsDuring (fetchProfile env) w =
    [ ConsoleLog "View Profile - Attempting to fetch profile";
      CallGetSellerProfile;
      ConsoleLogWith "Profile data:" data ].
Proof.
  intros Htok Hres. apply callsDuring_of_append. unfold eventsAfter.
  rewrite (fetchProfile_resolved env w data Htok Hres). reflexivity.
Qed.

Lemma callsDuring_rejected (env : Env) (w : World) (err : JsError) :
  Js.truthy_opt (storedToken env) = true ->
  fetchOutcome env = Rejected err ->
  callsDuring (fetchProfile env) w =
    [ ConsoleLog "View Profile - Attempting to fetch profile";
      CallGetSellerProfile;
      ConsoleErrorWith "Error fetching profile:" err;
      Toast (errorToast err) ] ++
    (if isAuthFailure (message err)
     then [ ConsoleLog "View Profile - Authentication error, redirecting to login";
            RouterPush "/seller/login?error=auth_failed" ]
     else []).
Proof.
  intros Htok Hrej. apply callsDuring_of_append. unfold eventsAfter.
  rewrite (fetchProfile_rejected env w err Htok Hrej). reflexivity.
Qed.

Lemma pageAfter_rejected (env : Env) (w : World) (err : JsError) :
  Js.truthy_opt (storedToken env) = true ->
  fetchOutcome env = Rejected err ->
  pageAfter (fetchProfile env) w =
    {| profile := profile (page w); loading := false;
       error := Some (shownMessage err) |}.
Proof.
  intros Htok Hrej. unfold pageAfter.
  rewrite (fetchProfile_rejected env w err Htok Hrej). reflexivity.
Qed.

Lemma pageAfter_resolved (env : Env) (w : World) (data : SellerProfile) :
  Js.truthy_opt (storedToken env) = true ->
  fetchOutcome env = Resolved data ->
  pageAfter (fetchProfile env) w =
    {| profile := Some data; loading := false; error := None |}.
Proof.
  intros Htok Hres. unfold pageAfter.
  rewrite (fetchProfile_resolved env w data Htok Hres). reflexivity.
Qed.

Lemma pageAfter_no_token (env : Env) (w : World) :
  Js.truthy_opt (storedToken env) = false ->
  pageAfter (fetchProfile env) w =
    {| profile := profile (page w); loading := false; error := error (page w) |}.
Proof.
  intros Htok. unfold pageAfter.
  rewrite fetchProfile_no_token by exact Htok. reflexivity.
Qed.

(** The body picked once loading is over. *)
Lemma content_error (p : option SellerProfile) (msg : string) :
  msg <> "" ->
  content {| profile := p; loading := false; error := Some msg |} = errorPanel msg.
Proof.
  intros H. unfold content. simpl.
  apply truthy_nonempty in H. rewrite H. reflexivity.
Qed.

Lemma content_no_error (p : option SellerProfile) :
  content {| profile := p; loading := false; error := None |}
  = profilePanel {| profile := p; loading := false; error := None |}.
Proof. reflexivity. Qed.

(** ** The effect *)

(** C1. A fetch failure whose message is exactly "Authentication expired",
    "No authentication token found" or "Failed to fetch profile: 403" makes
    the page show a destructive notification carrying that message, set the
    error state to that message, and request navigation to
    "/seller/login?error=auth_failed" (the calls of the run are listed in
    order). *)
Theorem auth_failure_notifies_and_redirects
    (env : Env) (w : World) (err : JsError) :
  Js.truthy_opt (storedToken env) = true ->
  fetchOutcome env = Rejected err ->
  (message err = "Authentication expired"
   \/ message err = "No authentication token found"
   \/ message err = "Failed to fetch profile: 403") ->
  error (pageAfter (fetchProfile env) w) = Some (message err)
  /\ callsDuring (fetchProfile env) w =
       [ ConsoleLog "View Profile - Attempting to fetch profile";
         CallGetSellerProfile;
         ConsoleErrorWith "Error fetching profile:" err;
         Toast {| toast_title := "Error";
                  toast_description := message err;
                  toast_variant := "destructive" |};
         ConsoleLog "View Profile - Authentication error, redirecting to login";
         RouterPush "/seller/login?error=auth_failed" ].
Proof.
  intros Htok Hrej Hmsg.
  rewrite (pageAfter_rejected env w err Htok Hrej).
  rewrite (callsDuring_rejected env w err Htok Hrej). simpl.
  apply isAuthFailure_iff in Hmsg.
  assert (Hshown : shownMessage err = message err).
  { apply or_else_nonempty, isAuthFailure_nonempty, Hmsg. }
  unfold errorToast. rewrite Hmsg, Hshown. auto.
Qed.

Lemma auth_failure_notifies_and_redirects_witness :
  error (pageAfter (fetchProfile (envRejected "Failed to fetch profile: 403"))
           (freshWorld (Some "session")))
    = Some "Failed to fetch profile: 403"
  /\ callsDuring (fetchProfile (envRejected "Failed to fetch profile: 403"))
       (freshWorld (Some "session")) =
       [ ConsoleLog "View Profile - Attempting to fetch profile";
         CallGetSellerProfile;
         ConsoleErrorWith "Error fetching profile:"
           {| message := "Failed to fetch profile: 403" |};
         Toast {| toast_title := "Error";
                  toast_description := "Failed to fetch profile: 403";
                  toast_variant := "destructive" |};
         ConsoleLog "View Profile - Authentication error, redirecting to login";
         RouterPush "/seller/login?error=auth_failed" ].
Proof.
  apply (auth_failure_notifies_and_redirects
           (envRejected "Failed to fetch profile: 403")
           (freshWorld (Some "session"))
           {| message := "Failed to fetch profile: 403" |}).
  - reflexivity.
  - reflexivity.
  - right; right; reflexivity.
Defined.

(** C2. When local storage holds no token, the run requests navigation to
    "/seller/login?error=no_token" and makes no call to [getSellerProfile]:
    the console message and the navigation request are all the calls it
    makes. *)
Theorem missing_token_redirects_without_fetch (env : Env) (w : World) :
  storedToken env = None ->
  callsDuring (fetchProfile env) w =
    [ ConsoleError
        "View Profile - No authentication token found, redirecting to login";
      RouterPush "/seller/login?error=no_token" ]
  /\ ~ In CallGetSellerProfile (callsDuring (fetchProfile env) w).
Proof.
  intros Hnone.
  rewrite callsDuring_no_token by (rewrite Hnone; reflexivity).
  split; [reflexivity|].
  simpl. intros [H | [H | []]]; discriminate.
Qed.

Lemma missing_token_redirects_without_fetch_witness :
  callsDuring (fetchProfile envNoToken) (freshWorld None) =
    [ ConsoleError
        "View Profile - No authentication token found, redirecting to login";
      RouterPush "/seller/login?error=no_token" ]
  /\ ~ In CallGetSellerProfile
        (callsDuring (fetchProfile envNoToken) (freshWorld None)).
Proof.
  apply (missing_token_redirects_without_fetch envNoToken (freshWorld None)).
  reflexivity.
Defined.

(** C3, as the claim states it, fails for a failure whose message is the
    empty string: the message is not one of the three recognized ones, yet
    the error state is set to "Failed to load profile", not to the message,
    and the panel shows that text. *)
Lemma generic_failure_empty_message_counterexample :
  "" <> "Authentication expired"
  /\ "" <> "No authentication token found"
  /\ "" <> "Failed to fetch profile: 403"
  /\ error (pageAfter (fetchProfile (envRejected "")) (freshWorld None))
     = Some "Failed to load profile"
  /\ error (pageAfter (fetchProfile (envRejected "")) (freshWorld None))
     <> Some (message {| message := "" |})
  /\ texts (content (pageAfter (fetchProfile (envRejected "")) (freshWorld None)))
     = [ "Error loading profile"; "Failed to load profile"; "Try Again" ].
Proof.
  repeat split; try discriminate; reflexivity.
Qed.

(** C3, amended. A fetch failure whose message is not one of the three
    recognized ones sets the error state to that message when the message
    is not empty, and to "Failed to load profile" when it is; the body is
    the error panel showing that same text; the run makes no navigation
    request (its calls are listed). *)
Theorem generic_failure_shows_error_panel
    (env : Env) (w : World) (err : JsError) :
  Js.truthy_opt (storedToken env) = true ->
  fetchOutcome env = Rejected err ->
  message err <> "Authentication expired" ->
  message err <> "No authentication token found" ->
  message err <> "Failed to fetch profile: 403" ->
  exists shown : string,
    (message err <> "" -> shown = message err)
    /\ (message err = "" -> shown = "Failed to load profile")
    /\ error (pageAfter (fetchProfile env) w) = Some shown
    /\ content (pageAfter (fetchProfile env) w) = errorPanel shown
    /\ texts (content (pageAfter (fetchProfile env) w))
       = [ "Error loading profile"; shown; "Try Again" ]
    /\ callsDuring (fetchProfile env) w =
         [ ConsoleLog "View Profile - Attempting to fetch profile";
           CallGetSellerProfile;
           ConsoleErrorWith "Error fetching profile:" err;
           Toast {| toast_title := "Error";
                    toast_description := shown;
                    toast_variant := "destructive" |} ]
    /\ existsb isPush (callsDuring (fetchProfile env) w) = false.
Proof.
  intros Htok Hrej H1 H2 H3.
  assert (Hno : isAuthFailure (message err) = false).
  { destruct (isAuthFailure (message err)) eqn:E; [|reflexivity].
    apply isAuthFailure_iff in E. tauto. }
  exists (shownMessage err).
  rewrite (pageAfter_rejected env w err Htok Hrej).
  rewrite (callsDuring_rejected env w err Htok Hrej), Hno.
  rewrite content_error
    by (apply truthy_nonempty, shownMessage_truthy).
  repeat split.
  - intros Hne. apply or_else_nonempty, Hne.
  - intros He. unfold shownMessage. rewrite He. reflexivity.
Qed.

Lemma generic_failure_shows_error_panel_witness :
  exists shown : string,
    ("Network timeout" <> "" -> shown = "Network timeout")
    /\ ("Network timeout" = "" -> shown = "Failed to load profile")
    /\ error (pageAfter (fetchProfile (envRejected "Network timeout"))
                (freshWorld None)) = Some shown
    /\ content (pageAfter (fetchProfile (envRejected "Network timeout"))
                  (freshWorld None)) = errorPanel shown
    /\ texts (content (pageAfter (fetchProfile (envRejected "Network timeout"))
                         (freshWorld None)))
       = [ "Error loading profile"; shown; "Try Again" ]
    /\ callsDuring (fetchProfile (envRejected "Network timeout"))
         (freshWorld None) =
         [ ConsoleLog "View Profile - Attempting to fetch profile";
           CallGetSellerProfile;
           ConsoleErrorWith "Error fetching profile:"
             {| message := "Network timeout" |};
           Toast {| toast_title := "Error";
                    toast_description := shown;
                    toast_variant := "destructive" |} ]
    /\ existsb isPush
         (callsDuring (fetchProfile (envRejected "Network timeout"))
            (freshWorld None)) = false.
Proof.
  apply (generic_failure_shows_error_panel
           (envRejected "Network timeout") (freshWorld None)
           {| message := "Network timeout" |});
    simpl; (reflexivity || discriminate).
Defined.

(** C10. A failed fetch leaves the profile state as it was: from the
    initial state it is still null afterwards; in any run, a profile state
    that changed means the fetch resolved; and the error panel that a
    failure brings up is the same tree whatever the profile state holds. *)
Theorem failed_fetch_keeps_profile (env : Env) (w : World) (err : JsError) :
  Js.truthy_opt (storedToken env) = true ->
  fetchOutcome env = Rejected err ->
  profile (pageAfter (fetchProfile env) w) = profile (page w)
  /\ (profile (page w) = None -> profile (pageAfter (fetchProfile env) w) = None)
  /\ (forall (env' : Env) (w' : World),
        profile (pageAfter (fetchProfile env') w') <> profile (page w') ->
        exists data, fetchOutcome env' = Resolved data)
  /\ (forall p : option SellerProfile,
        content {| profile := p; loading := false;
                   error := error (pageAfter (fetchProfile env) w) |}
        = errorPanel (shownMessage err)).
Proof.
  intros Htok Hrej.
  rewrite (pageAfter_rejected env w err Htok Hrej).
  cbn [profile error].
  repeat split; auto.
  - intros env' w' Hchanged.
    destruct (fetchProfile_paths env') as [Hf | [[Ht [data Hd]] | [Ht [err' He]]]].
    + rewrite pageAfter_no_token in Hchanged by exact Hf. simpl in Hchanged.
      congruence.
    + eauto.
    + rewrite (pageAfter_rejected env' w' err' Ht He) in Hchanged.
      simpl in Hchanged. congruence.
  - intros p. apply content_error, truthy_nonempty, shownMessage_truthy.
Qed.

Lemma failed_fetch_keeps_profile_witness :
  profile (pageAfter (fetchProfile (envRejected "Network timeout")) (freshWorld None))
  = profile (page (freshWorld None))
  /\ (profile (page (freshWorld None)) = None ->
      profile (pageAfter (fetchProfile (envRejected "Network timeout"))
                 (freshWorld None)) = None)
  /\ (forall (env' : Env) (w' : World),
        profile (pageAfter (fetchProfile env') w') <> profile (page w') ->
        exists data, fetchOutcome env' = Resolved data)
  /\ (forall p : option SellerProfile,
        content {| profile := p; loading := false;
                   error := error (pageAfter
                                     (fetchProfile (envRejected "Network timeout"))
                                     (freshWorld None)) |}
        = errorPanel (shownMessage {| message := "Network timeout" |})).
Proof.
  apply (failed_fetch_keeps_profile
           (envRejected "Network timeout") (freshWorld None)
           {| message := "Network timeout" |});
    reflexivity.
Defined.

(** C5, as the claim states it, fails for a successful response whose
    [fullName] is the empty string: the profile is stored, but the name
    heading reads "User", and the response's [fullName] is none of the
    texts of the body. *)
Lemma success_empty_name_counterexample :
  profile (pageAfter (fetchProfile (envResolved namelessSeller)) (freshWorld None))
  = Some namelessSeller
  /\ texts (content (pageAfter (fetchProfile (envResolved namelessSeller))
                       (freshWorld None)))
     = [ "User"; "CEO"; "ðŸ“§"; " "; "jane@x.com";
         "Company Information"; "Company Name:"; "Not provided" ]
  /\ ~ In (fullName namelessSeller)
         (texts (content (pageAfter (fetchProfile (envResolved namelessSeller))
                            (freshWorld None)))).
Proof.
  split; [reflexivity | split; [reflexivity |]].
  simpl. intros H.
  repeat (destruct H as [H | H]; [discriminate H |]). exact H.
Qed.

(** C5, amended. A successful response is stored as the profile, the error
    state becomes null and loading false; the body is the profile panel and
    no error panel; it shows the response's [fullName] and [email]
    where these are not empty (with "User" and "Email not provided" in the
    place of an empty one). *)
Theorem success_stores_and_shows_profile
    (env : Env) (w : World) (data : SellerProfile) :
  Js.truthy_opt (storedToken env) = true ->
  fetchOutcome env = Resolved data ->
  pageAfter (fetchProfile env) w
    = {| profile := Some data; loading := false; error := None |}
  /\ content (pageAfter (fetchProfile env) w)
     = profilePanel (pageAfter (fetchProfile env) w)
  /\ (forall msg, content (pageAfter (fetchProfile env) w) <> errorPanel msg)
  /\ (exists name mail : string,
        texts (content (pageAfter (fetchProfile env) w))
        = [ name; Js.or_else (title data) "CEO"; "ðŸ“§"; " "; mail;
            "Company Information"; "Company Name:";
            Js.or_else (companyName data) "Not provided" ]
        /\ (fullName data <> "" -> name = fullName data)
        /\ (fullName data = "" -> name = "User")
        /\ (email data <> "" -> mail = email data)
        /\ (email data = "" -> mail = "Email not provided")).
Proof.
  intros Htok Hres.
  rewrite (pageAfter_resolved env w data Htok Hres).
  rewrite content_no_error.
  split; [reflexivity | split; [reflexivity | split]].
  - intros msg H. symmetry in H. exact (error_not_profile _ _ H).
  - exists (Js.or_else (Some (fullName data)) "User"),
           (Js.or_else (Some (email data)) "Email not provided").
    split; [reflexivity |].
    repeat split; intros H;
      solve [ apply or_else_nonempty, H | rewrite H; reflexivity ].
Qed.

Lemma success_stores_and_shows_profile_witness :
  pageAfter (fetchProfile (envResolved janeDoe)) (freshWorld None)
    = {| profile := Some janeDoe; loading := false; error := None |}
  /\ content (pageAfter (fetchProfile (envResolved janeDoe)) (freshWorld None))
     = profilePanel (pageAfter (fetchProfile (envResolved janeDoe)) (freshWorld None))
  /\ (forall msg,
        content (pageAfter (fetchProfile (envResolved janeDoe)) (freshWorld None))
        <> errorPanel msg)
  /\ (exists name mail : string,
        texts (content (pageAfter (fetchProfile (envResolved janeDoe))
                          (freshWorld None)))
        = [ name; Js.or_else (title janeDoe) "CEO"; "ðŸ“§"; " "; mail;
            "Company Information"; "Company Name:";
            Js.or_else (companyName janeDoe) "Not provided" ]
        /\ (fullName janeDoe <> "" -> name = fullName janeDoe)
        /\ (fullName janeDoe = "" -> name = "User")
        /\ (email janeDoe <> "" -> mail = email janeDoe)
        /\ (email janeDoe = "" -> mail = "Email not provided")).
Proof.
  apply (success_stores_and_shows_profile
           (envResolved janeDoe) (freshWorld None) janeDoe);
    reflexivity.
Defined.

(** The run of the spec's example: "Jane Doe" and "jane@x.com" are shown. *)
Example jane_doe_is_shown :
  texts (content (pageAfter (fetchProfile (envResolved janeDoe)) (freshWorld None)))
  = [ "Jane Doe"; "CEO"; "ðŸ“§"; " "; "jane@x.com";
      "Company Information"; "Company Name:"; "Not provided" ].
Proof. reflexivity. Qed.

(** C6, as the claim states it, fails on the success path and on the
    missing-token path: neither run shows a notification. *)
Lemma quiet_paths_counterexample :
  existsb isToast
    (callsDuring (fetchProfile (envResolved janeDoe)) (freshWorld None)) = false
  /\ callsDuring (fetchProfile (envResolved janeDoe)) (freshWorld None)
     = [ ConsoleLog "View Profile - Attempting to fetch profile";
         CallGetSellerProfile;
         ConsoleLogWith "Profile data:" janeDoe ]
  /\ existsb isToast
       (callsDuring (fetchProfile envNoToken) (freshWorld None)) = false
  /\ callsDuring (fetchProfile envNoToken) (freshWorld None)
     = [ ConsoleError
           "View Profile - No authentication token found, redirecting to login";
         RouterPush "/seller/login?error=no_token" ].
Proof. repeat split. Qed.

(** C6, amended. No run of the effect completes by throwing: a failure of
    the profile retrieval is caught in [fetchProfile] and goes no further,
    and every run ends with loading false. A run with no token ends with
    the navigation request and no notification; a successful run ends with
    the profile panel, no notification and no navigation request; a failed
    run ends with the destructive notification and the error panel, and
    with the navigation request after them exactly when the message is one
    of the three recognized ones. *)
Theorem effect_never_throws_and_ends_visibly (env : Env) (w : World) :
  (forall e, completionOf (fetchProfile env) w <> Thrown e)
  /\ (forall e, completionOf (mountEffect env) w <> Thrown e)
  /\ loading (pageAfter (fetchProfile env) w) = false
  /\ ( (Js.truthy_opt (storedToken env) = false
        /\ callsDuring (fetchProfile env) w =
             [ ConsoleError
                 "View Profile - No authentication token found, redirecting to login";
               RouterPush "/seller/login?error=no_token" ])
       \/ (exists data,
             Js.truthy_opt (storedToken env) = true
             /\ fetchOutcome env = Resolved data
             /\ callsDuring (fetchProfile env) w =
                  [ ConsoleLog "View Profile - Attempting to fetch profile";
                    CallGetSellerProfile;
                    ConsoleLogWith "Profile data:" data ]
             /\ content (pageAfter (fetchProfile env) w)
                = profilePanel (pageAfter (fetchProfile env) w))
       \/ (exists err,
             Js.truthy_opt (storedToken env) = true
             /\ fetchOutcome env = Rejected err
             /\ content (pageAfter (fetchProfile env) w)
                = errorPanel (shownMessage err)
             /\ callsDuring (fetchProfile env) w =
                  [ ConsoleLog "View Profile - Attempting to fetch profile";
                    CallGetSellerProfile;
                    ConsoleErrorWith "Error fetching profile:" err;
                    Toast {| toast_title := "Error";
                             toast_description := shownMessage err;
                             toast_variant := "destructive" |} ]
                  ++ (if isAuthFailure (message err)
                      then [ ConsoleLog
                               "View Profile - Authentication error, redirecting to login";
                             RouterPush "/seller/login?error=auth_failed" ]
                      else [])) ).
Proof.
  assert (Hclient : forall e, completionOf (fetchProfile env) w <> Thrown e
                    /\ loading (pageAfter (fetchProfile env) w) = false).
  { intros e. unfold completionOf, pageAfter.
    destruct (fetchProfile_paths env) as [Hf | [[Ht [data Hd]] | [Ht [err He]]]].
    - rewrite fetchProfile_no_token by exact Hf. split; [discriminate | reflexivity].
    - rewrite (fetchProfile_resolved env w data Ht Hd).
      split; [discriminate | reflexivity].
    - rewrite (fetchProfile_rejected env w err Ht He).
      split; [discriminate | reflexivity]. }
  split; [intros e; apply (Hclient e) |].
  split.
  { intros e. unfold mountEffect.
    destruct (windowDefined env); simpl; [apply (Hclient e) | discriminate]. }
  split; [apply (Hclient {| message := "" |}) |].
  destruct (fetchProfile_paths env) as [Hf | [[Ht [data Hd]] | [Ht [err He]]]].
  - left. split; [exact Hf | apply callsDuring_no_token, Hf].
  - right; left. exists data.
    rewrite (callsDuring_resolved env w data Ht Hd).
    rewrite (pageAfter_resolved env w data Ht Hd).
    repeat split; assumption.
  - right; right. exists err.
    rewrite (callsDuring_rejected env w err Ht He).
    rewrite (pageAfter_rejected env w err Ht He).
    split; [exact Ht | split; [exact He | split; [| reflexivity]]].
    apply content_error, truthy_nonempty, shownMessage_truthy.
Qed.

(** ** The rendered body *)

(** No run of the effect stores the empty string as the error. *)
Lemma fetchProfile_error_not_empty (env : Env) (w : World) :
  error (page w) <> Some "" ->
  error (pageAfter (fetchProfile env) w) <> Some "".
Proof.
  intros Hw.
  destruct (fetchProfile_paths env) as [Hf | [[Ht [data Hd]] | [Ht [err He]]]].
  - rewrite pageAfter_no_token by exact Hf. exact Hw.
  - rewrite (pageAfter_resolved env w data Ht Hd). discriminate.
  - rewrite (pageAfter_rejected env w err Ht He). simpl.
    intros H. injection H as H.
    pose proof (shownMessage_truthy err) as Ht'. rewrite H in Ht'. discriminate.
Qed.

(** The conditional of lines 179-301 over all values of the three cells,
    also those no run produces: the skeleton when loading is true; the error
    panel when loading is false and the error is a string that is not empty;
    the profile panel when loading is false and the error is null or the
    empty string. The three views are different trees. *)
Lemma body_by_truthiness (st : PageState) :
  ( (loading st = true
     /\ content st = skeletonPanel
     /\ texts (content st) = [])
    \/ (loading st = false
        /\ exists msg, error st = Some msg /\ msg <> ""
                       /\ content st = errorPanel msg)
    \/ (loading st = false
        /\ (error st = None \/ error st = Some "")
        /\ content st = profilePanel st) )
  /\ (forall (msg : string) (st' : PageState),
        skeletonPanel <> errorPanel msg
        /\ skeletonPanel <> profilePanel st'
        /\ errorPanel msg <> profilePanel st')
  /\ (forall (p p' : option SellerProfile) (e : option string),
        render {| profile := p; loading := true; error := e |}
        = render {| profile := p'; loading := true; error := e |}).
Proof.
  split; [| split].
  - destruct st as [p l e]. unfold content. simpl.
    destruct l; [left; auto |].
    right. destruct e as [msg |].
    + destruct msg as [| c msg'].
      * right. auto.
      * left. split; [reflexivity |]. exists (String c msg').
        repeat split. discriminate.
    + right. auto.
  - intros msg st'.
    split; [apply skeleton_not_error |
            split; [apply skeleton_not_profile | apply error_not_profile]].
  - intros p p' e. reflexivity.
Qed.

(** C8. In the loaded view (loading false, error null) the body is the
    profile panel and its texts are, in order, the full name, the title,
    the mail sign, the email, the two fixed headings and the company name;
    an absent or empty full name is shown as "User", title as "CEO", email
    as "Email not provided" and company name as "Not provided". The
    website is a field of the profile, and the page is the same whatever it
    holds. *)
Theorem loaded_view_fallbacks (st : PageState) :
  loading st = false ->
  error st = None ->
  content st = profilePanel st
  /\ (exists name job mail company : string,
        texts (content st)
        = [ name; job; "ðŸ“§"; " "; mail;
            "Company Information"; "Company Name:"; company ]
        /\ fallsBackTo (option_map fullName (profile st)) "User" name
        /\ fallsBackTo (match profile st with Some p => title p | None => None end)
             "CEO" job
        /\ fallsBackTo (option_map email (profile st)) "Email not provided" mail
        /\ fallsBackTo
             (match profile st with Some p => companyName p | None => None end)
             "Not provided" company)
  /\ (forall (p : SellerProfile) (site : option string),
        profile st = Some p ->
        render {| profile := Some (withWebsite site p);
                  loading := loading st; error := error st |}
        = render st).
Proof.
  intros Hl He.
  assert (Hfb : forall v d, fallsBackTo v d (Js.or_else v d)).
  { intros v d. split.
    - intros [H | H]; rewrite H; reflexivity.
    - intros s H Hs. rewrite H. apply or_else_nonempty, Hs. }
  assert (Hc : content st = profilePanel st).
  { unfold content. rewrite Hl, He. reflexivity. }
  split; [exact Hc | split].
  - rewrite Hc, texts_profilePanel.
    exists (Js.or_else (profile_fullName st) "User"),
           (Js.or_else (profile_title st) "CEO"),
           (Js.or_else (profile_email st) "Email not provided"),
           (Js.or_else (profile_companyName st) "Not provided").
    split; [reflexivity |].
    repeat split; apply Hfb.
  - intros p site Hp. destruct st as [p0 l e]. simpl in *. subst.
    reflexivity.
Qed.

Lemma loaded_view_fallbacks_witness :
  content {| profile := Some namelessSeller; loading := false; error := None |}
  = profilePanel {| profile := Some namelessSeller; loading := false; error := None |}
  /\ (exists name job mail company : string,
        texts (content {| profile := Some namelessSeller; loading := false;
                          error := None |})
        = [ name; job; "ðŸ“§"; " "; mail;
            "Company Information"; "Company Name:"; company ]
        /\ fallsBackTo (Some "") "User" name
        /\ fallsBackTo None "CEO" job
        /\ fallsBackTo (Some "jane@x.com") "Email not provided" mail
        /\ fallsBackTo None "Not provided" company)
  /\ (forall (p : SellerProfile) (site : option string),
        Some namelessSeller = Some p ->
        render {| profile := Some (withWebsite site p);
                  loading := false; error := None |}
        = render {| profile := Some namelessSeller; loading := false;
                    error := None |}).
Proof.
  apply (loaded_view_fallbacks
           {| profile := Some namelessSeller; loading := false; error := None |});
    reflexivity.
Defined.

(** C9. With no stored token, a run from the initial state still ends with
    loading false, while the error and the profile stay null; the body is
    then the profile panel filled with the fallback texts "User", "CEO",
    "Email not provided" and "Not provided", and it is neither the skeleton
    nor an error panel. *)
Theorem missing_token_renders_fallback_profile (env : Env) (a : AuthSession) :
  storedToken env = None ->
  pageAfter (fetchProfile env) (freshWorld a)
    = {| profile := None; loading := false; error := None |}
  /\ content (pageAfter (fetchProfile env) (freshWorld a))
     = profilePanel (pageAfter (fetchProfile env) (freshWorld a))
  /\ texts (content (pageAfter (fetchProfile env) (freshWorld a)))
     = [ "User"; "CEO"; "ðŸ“§"; " "; "Email not provided";
         "Company Information"; "Company Name:"; "Not provided" ]
  /\ content (pageAfter (fetchProfile env) (freshWorld a)) <> skeletonPanel
  /\ (forall msg,
        content (pageAfter (fetchProfile env) (freshWorld a)) <> errorPanel msg).
Proof.
  intros Hnone.
  rewrite pageAfter_no_token by (rewrite Hnone; reflexivity).
  simpl. rewrite content_no_error.
  repeat split.
  - intros H. symmetry in H. exact (skeleton_not_profile _ H).
  - intros msg H. symmetry in H. exact (error_not_profile _ _ H).
Qed.

Lemma missing_token_renders_fallback_profile_witness :
  pageAfter (fetchProfile envNoToken) (freshWorld None)
    = {| profile := None; loading := false; error := None |}
  /\ content (pageAfter (fetchProfile envNoToken) (freshWorld None))
     = profilePanel (pageAfter (fetchProfile envNoToken) (freshWorld None))
  /\ texts (content (pageAfter (fetchProfile envNoToken) (freshWorld None)))
     = [ "User"; "CEO"; "ðŸ“§"; " "; "Email not provided";
         "Company Information"; "Company Name:"; "Not provided" ]
  /\ content (pageAfter (fetchProfile envNoToken) (freshWorld None)) <> skeletonPanel
  /\ (forall msg,
        content (pageAfter (fetchProfile envNoToken) (freshWorld None))
        <> errorPanel msg).
Proof.
  apply (missing_token_renders_fallback_profile envNoToken None).
  reflexivity.
Defined.

(** ** Logout *)

(** C7. Whatever the page state (and whatever was called before),
    [handleLogout] calls [logout], which leaves the session cleared, and
    then requests navigation to "/seller/login"; it tests nothing. The
    control that runs it, Sign Out in the sidebar, is rendered in every
    state. *)
Theorem logout_clears_session_then_navigates
    (st : PageState) (a : AuthSession) (evs : list Event) :
  handleLogout {| page := st; auth := a; events := evs |}
  = (Normal tt,
     {| page := st; auth := clearedSession;
        events := evs ++ [ CallLogout; RouterPush "/seller/login" ] |})
  /\ handleLogout {| page := st; auth := a; events := evs |}
     = routerPush "/seller/login"
         (snd (logout {| page := st; auth := a; events := evs |}))
  /\ click SignOut = handleLogout
  /\ In SignOut (handlers (render st)).
Proof.
  repeat split.
  - unfold handleLogout, logout, routerPush, bind, emit, modify_auth. simpl.
    rewrite <- app_assoc. reflexivity.
  - unfold render, sidebar. simpl. auto.
Qed.

(** * Further properties of the effect *)

(** ** Which collaborators a run calls *)

(** X1. A run calls [getSellerProfile] exactly once when local storage
    holds a token that is not empty, and not at all otherwise. *)
Theorem fetch_called_exactly_with_token (env : Env) (w : World) :
  filter isFetchCall (callsDuring (fetchProfile env) w)
  = if Js.truthy_opt (storedToken env) then [ CallGetSellerProfile ] else [].
Proof.
  destruct (fetchProfile_paths env) as [Hf | [[Ht [data Hd]] | [Ht [err He]]]].
  - rewrite callsDuring_no_token by exact Hf. rewrite Hf. reflexivity.
  - rewrite (callsDuring_resolved env w data Ht Hd), Ht. reflexivity.
  - rewrite (callsDuring_rejected env w err Ht He), Ht.
    destruct (isAuthFailure (message err)); reflexivity.
Qed.

(** X2. A token stored as the empty string counts as no token: the run is
    the run of an empty storage, with the navigation request to
    "/seller/login?error=no_token" and no call of the service. *)
Theorem empty_token_is_missing_token (env : Env) (w : World) :
  storedToken env = Some "" ->
  fetchProfile env w
  = fetchProfile {| windowDefined := windowDefined env;
                    storedToken := None;
                    fetchOutcome := fetchOutcome env |} w
  /\ callsDuring (fetchProfile env) w =
       [ ConsoleError
           "View Profile - No authentication token found, redirecting to login";
         RouterPush "/seller/login?error=no_token" ].
Proof.
  intros Hempty.
  assert (Hf : Js.truthy_opt (storedToken env) = false)
    by (rewrite Hempty; reflexivity).
  split.
  - rewrite fetchProfile_no_token by exact Hf.
    rewrite fetchProfile_no_token by reflexivity. reflexivity.
  - apply callsDuring_no_token, Hf.
Qed.

Lemma empty_token_is_missing_token_witness :
  fetchProfile {| windowDefined := true; storedToken := Some "";
                  fetchOutcome := Resolved janeDoe |} (freshWorld None)
  = fetchProfile {| windowDefined := true; storedToken := None;
                    fetchOutcome := Resolved janeDoe |} (freshWorld None)
  /\ callsDuring
       (fetchProfile {| windowDefined := true; storedToken := Some "";
                        fetchOutcome := Resolved janeDoe |}) (freshWorld None) =
       [ ConsoleError
           "View Profile - No authentication token found, redirecting to login";
         RouterPush "/seller/login?error=no_token" ].
Proof.
  apply (empty_token_is_missing_token
           {| windowDefined := true; storedToken := Some "";
              fetchOutcome := Resolved janeDoe |} (freshWorld None)).
  reflexivity.
Defined.

(** X3. The navigation requests of a run, over all inputs: one request to
    "/seller/login?error=no_token" when there is no token; one request to
    "/seller/login?error=auth_failed" when the fetch fails with one of the
    three recognized messages; none in every other case. A run never makes
    two requests. *)
Theorem navigation_requests_of_a_run (env : Env) (w : World) :
  filter isPush (callsDuring (fetchProfile env) w)
  = if Js.truthy_opt (storedToken env) then
      match fetchOutcome env with
      | Resolved _ => []
      | Rejected err =>
          if isAuthFailure (message err)
          then [ RouterPush "/seller/login?error=auth_failed" ]
          else []
      end
    else [ RouterPush "/seller/login?error=no_token" ].
Proof.
  destruct (fetchProfile_paths env) as [Hf | [[Ht [data Hd]] | [Ht [err He]]]].
  - rewrite callsDuring_no_token by exact Hf. rewrite Hf. reflexivity.
  - rewrite (callsDuring_resolved env w data Ht Hd), Ht, Hd. reflexivity.
  - rewrite (callsDuring_rejected env w err Ht He), Ht, He.
    destruct (isAuthFailure (message err)); reflexivity.
Qed.

(** X4. Whenever a run shows a notification, the notification is the
    destructive one titled "Error", its description is not empty, and the
    description is the very text the run stores as the error and the error
    panel then displays: the toast and the panel never disagree. *)
Theorem notification_matches_error_panel
    (env : Env) (w : World) (args : ToastArgs) :
  In (Toast args) (callsDuring (fetchProfile env) w) ->
  toast_title args = "Error"
  /\ toast_variant args = "destructive"
  /\ toast_description args <> ""
  /\ error (pageAfter (fetchProfile env) w) = Some (toast_description args)
  /\ content (pageAfter (fetchProfile env) w)
     = errorPanel (toast_description args).
Proof.
  intros Hin.
  destruct (fetchProfile_paths env) as [Hf | [[Ht [data Hd]] | [Ht [err He]]]].
  - rewrite callsDuring_no_token in Hin by exact Hf.
    simpl in Hin. destruct Hin as [H | [H | []]]; discriminate.
  - rewrite (callsDuring_resolved env w data Ht Hd) in Hin.
    simpl in Hin. destruct Hin as [H | [H | [H | []]]]; discriminate.
  - rewrite (callsDuring_rejected env w err Ht He) in Hin.
    assert (Hargs : args = errorToast err).
    { destruct (isAuthFailure (message err)); simpl in Hin;
        repeat (destruct Hin as [Hin | Hin]; try discriminate Hin);
        try (injection Hin as Hin; symmetry; exact Hin);
        destruct Hin. }
    subst args.
    rewrite (pageAfter_rejected env w err Ht He). simpl.
    pose proof (shownMessage_truthy err) as Htr.
    apply truthy_nonempty in Htr.
    repeat split; try assumption.
    apply content_error, Htr.
Qed.

Lemma notification_matches_error_panel_witness :
  toast_title (errorToast {| message := "Network timeout" |}) = "Error"
  /\ toast_variant (errorToast {| message := "Network timeout" |}) = "destructive"
  /\ toast_description (errorToast {| message := "Network timeout" |}) <> ""
  /\ error (pageAfter (fetchProfile (envRejected "Network timeout"))
              (freshWorld None))
     = Some (toast_description (errorToast {| message := "Network timeout" |}))
  /\ content (pageAfter (fetchProfile (envRejected "Network timeout"))
                (freshWorld None))
     = errorPanel (toast_description (errorToast {| message := "Network timeout" |})).
Proof.
  apply (notification_matches_error_panel
           (envRejected "Network timeout") (freshWorld None)
           (errorToast {| message := "Network timeout" |})).
  vm_compute. right; right; right; left. reflexivity.
Defined.

(** X5. A run of the effect neither reads nor writes the authentication
    session and drops none of the calls recorded before it; the calls it
    makes depend on the inputs of the run alone, not on the state or the
    history it starts from. *)
Theorem effect_frame (env : Env) (w : World) :
  auth (snd (fetchProfile env w)) = auth w
  /\ eventsAfter (fetchProfile env) w = events w ++ callsDuring (fetchProfile env) w
  /\ (forall w' : World,
        callsDuring (fetchProfile env) w' = callsDuring (fetchProfile env) w)
  /\ (forall a : AuthSession,
        pageAfter (fetchProfile env)
          {| page := page w; auth := a; events := events w |}
        = pageAfter (fetchProfile env) w).
Proof.
  destruct (fetchProfile_paths env) as [Hf | [[Ht [data Hd]] | [Ht [err He]]]].
  - repeat split.
    + rewrite fetchProfile_no_token by exact Hf. reflexivity.
    + rewrite callsDuring_no_token by exact Hf. unfold eventsAfter.
      rewrite fetchProfile_no_token by exact Hf. reflexivity.
    + intros w'. rewrite !callsDuring_no_token by exact Hf. reflexivity.
    + intros a. rewrite !pageAfter_no_token by exact Hf. reflexivity.
  - repeat split.
    + rewrite (fetchProfile_resolved env w data Ht Hd). reflexivity.
    + rewrite (callsDuring_resolved env w data Ht Hd). unfold eventsAfter.
      rewrite (fetchProfile_resolved env w data Ht Hd). reflexivity.
    + intros w'. rewrite !(callsDuring_resolved env _ data Ht Hd). reflexivity.
    + intros a. rewrite !(pageAfter_resolved env _ data Ht Hd). reflexivity.
  - repeat split.
    + rewrite (fetchProfile_rejected env w err Ht He). reflexivity.
    + rewrite (callsDuring_rejected env w err Ht He). unfold eventsAfter.
      rewrite (fetchProfile_rejected env w err Ht He). reflexivity.
    + intros w'. rewrite !(callsDuring_rejected env _ err Ht He). reflexivity.
    + intros a. rewrite !(pageAfter_rejected env _ err Ht He). reflexivity.
Qed.

(** X6. Running the effect a second time on the same inputs changes
    nothing in the view state: the state after two runs is the state after
    one, and the second run makes the same calls as the first. *)
Theorem effect_rerun_is_idempotent (env : Env) (w : World) :
  pageAfter (fetchProfile env) (snd (fetchProfile env w))
  = pageAfter (fetchProfile env) w
  /\ callsDuring (fetchProfile env) (snd (fetchProfile env w))
     = callsDuring (fetchProfile env) w.
Proof.
  destruct (fetchProfile_paths env) as [Hf | [[Ht [data Hd]] | [Ht [err He]]]].
  - rewrite !pageAfter_no_token, !callsDuring_no_token by exact Hf.
    rewrite fetchProfile_no_token by exact Hf. split; reflexivity.
  - rewrite !(pageAfter_resolved env _ data Ht Hd),
            !(callsDuring_resolved env _ data Ht Hd). split; reflexivity.
  - rewrite !(pageAfter_rejected env _ err Ht He),
            !(callsDuring_rejected env _ err Ht He).
    rewrite (fetchProfile_rejected env w err Ht He). split; reflexivity.
Qed.

(** ** While the request is pending *)

(** X16. With a token in storage, a run is its part up to the [await]
    followed by its part after it. At the point where it waits, the service
    has been called, loading is true and the page shows the skeleton and the
    fixed texts only, whatever profile or error an earlier run left in the
    state. *)
Theorem pending_fetch_shows_skeleton (env : Env) (w : World) :
  Js.truthy_opt (storedToken env) = true ->
  fetchProfile env w = afterAwait env (snd (untilAwait w))
  /\ callsDuring untilAwait w =
       [ ConsoleLog "View Profile - Attempting to fetch profile";
         CallGetSellerProfile ]
  /\ page (snd (untilAwait w))
     = {| profile := profile (page w); loading := true; error := error (page w) |}
  /\ content (page (snd (untilAwait w))) = skeletonPanel
  /\ texts (render (page (snd (untilAwait w)))) = fixedTexts.
Proof.
  intros Htok. split; [| split; [| repeat split]].
  - unfold afterAwait, untilAwait, catchBlock. run_stmt. rewrite Htok. simpl.
    destruct (fetchOutcome env) as [data | err]; simpl; [reflexivity |].
    destruct (isAuthFailure (message err)); reflexivity.
  - apply callsDuring_of_append. unfold eventsAfter, untilAwait. run_stmt.
    rewrite <- app_assoc. reflexivity.
Qed.

Lemma pending_fetch_shows_skeleton_witness :
  fetchProfile (envRejected "Network timeout")
    {| page := {| profile := Some janeDoe; loading := false;
                  error := Some "Network timeout" |};
       auth := None; events := [] |}
  = afterAwait (envRejected "Network timeout")
      (snd (untilAwait
              {| page := {| profile := Some janeDoe; loading := false;
                            error := Some "Network timeout" |};
                 auth := None; events := [] |}))
  /\ callsDuring untilAwait
       {| page := {| profile := Some janeDoe; loading := false;
                     error := Some "Network timeout" |};
          auth := None; events := [] |} =
       [ ConsoleLog "View Profile - Attempting to fetch profile";
         CallGetSellerProfile ]
  /\ page (snd (untilAwait
                  {| page := {| profile := Some janeDoe; loading := false;
                                error := Some "Network timeout" |};
                     auth := None; events := [] |}))
     = {| profile := Some janeDoe; loading := true;
          error := Some "Network timeout" |}
  /\ content (page (snd (untilAwait
                           {| page := {| profile := Some janeDoe; loading := false;
                                         error := Some "Network timeout" |};
                              auth := None; events := [] |})))
     = skeletonPanel
  /\ texts (render (page (snd (untilAwait
                                 {| page := {| profile := Some janeDoe;
                                               loading := false;
                                               error := Some "Network timeout" |};
                                    auth := None; events := [] |}))))
     = fixedTexts.
Proof.
  apply (pending_fetch_shows_skeleton (envRejected "Network timeout")
           {| page := {| profile := Some janeDoe; loading := false;
                         error := Some "Network timeout" |};
              auth := None; events := [] |}).
  reflexivity.
Defined.

(** ** The recognized messages are matched exactly *)

Lemma isAuthFailure_extended (msg rest : string) :
  isAuthFailure msg = true -> rest <> "" ->
  isAuthFailure (msg ++ rest)%string = false.
Proof.
  intros Hm Hr. apply isAuthFailure_iff in Hm.
  destruct rest as [| c rest']; [contradiction |].
  destruct Hm as [H | [H | H]]; subst msg; reflexivity.
Qed.

(** X11. The three messages are recognized by exact equality: a failure
    whose message is a recognized message followed by anything more (say a
    status text after "Failed to fetch profile: 403") is an ordinary
    failure. The run makes no navigation request and the error panel shows
    the whole message. *)
Theorem extended_auth_message_is_generic
    (env : Env) (w : World) (err : JsError) (msg rest : string) :
  Js.truthy_opt (storedToken env) = true ->
  fetchOutcome env = Rejected err ->
  (msg = "Authentication expired"
   \/ msg = "No authentication token found"
   \/ msg = "Failed to fetch profile: 403") ->
  rest <> "" ->
  message err = (msg ++ rest)%string ->
  filter isPush (callsDuring (fetchProfile env) w) = []
  /\ error (pageAfter (fetchProfile env) w) = Some (message err)
  /\ content (pageAfter (fetchProfile env) w) = errorPanel (message err).
Proof.
  intros Htok Hrej Hmsg Hrest Herr.
  assert (Hno : isAuthFailure (message err) = false).
  { rewrite Herr. apply isAuthFailure_extended; [| exact Hrest].
    apply isAuthFailure_iff, Hmsg. }
  assert (Hne : message err <> "").
  { rewrite Herr. destruct Hmsg as [H | [H | H]]; subst msg; discriminate. }
  rewrite (callsDuring_rejected env w err Htok Hrej), Hno.
  rewrite (pageAfter_rejected env w err Htok Hrej).
  unfold shownMessage. rewrite (or_else_nonempty _ _ Hne).
  repeat split. apply content_error, Hne.
Qed.

Lemma extended_auth_message_is_generic_witness :
  filter isPush
    (callsDuring (fetchProfile (envRejected "Failed to fetch profile: 403 Forbidden"))
       (freshWorld None)) = []
  /\ error (pageAfter (fetchProfile (envRejected "Failed to fetch profile: 403 Forbidden"))
              (freshWorld None))
     = Some (message {| message := "Failed to fetch profile: 403 Forbidden" |})
  /\ content (pageAfter (fetchProfile (envRejected "Failed to fetch profile: 403 Forbidden"))
                (freshWorld None))
     = errorPanel (message {| message := "Failed to fetch profile: 403 Forbidden" |}).
Proof.
  apply (extended_auth_message_is_generic
           (envRejected "Failed to fetch profile: 403 Forbidden")
           (freshWorld None)
           {| message := "Failed to fetch profile: 403 Forbidden" |}
           "Failed to fetch profile: 403" " Forbidden").
  - reflexivity.
  - reflexivity.
  - right; right; reflexivity.
  - discriminate.
  - reflexivity.
Defined.

(** ** Runs in sequence *)

Lemma mountEffect_server (env : Env) (w : World) :
  windowDefined env = false -> mountEffect env w = (Returned, w).
Proof. intros H. unfold mountEffect. rewrite H. reflexivity. Qed.

Lemma runEffects_snoc (envs : list Env) (env : Env) (w : World) :
  runEffects (envs ++ [env]) w = snd (mountEffect env (runEffects envs w)).
Proof. unfold runEffects. rewrite fold_left_app. reflexivity. Qed.

(** X12. After any number of runs of the effect from the initial state,
    with any inputs: the stored error is never the empty string (so the
    error panel is shown exactly when the error is not null, once loading
    is false); a stored profile is one that the service returned in one of
    the runs made with a token; a stored error is the text of a failure of
    one of the runs; and the authentication session is the one the page
    started with. *)
Theorem run_sequence_invariant (envs : list Env) (a : AuthSession) :
  error (page (runEffects envs (freshWorld a))) <> Some ""
  /\ (forall p, profile (page (runEffects envs (freshWorld a))) = Some p ->
        exists env, In env envs
                    /\ windowDefined env = true
                    /\ Js.truthy_opt (storedToken env) = true
                    /\ fetchOutcome env = Resolved p)
  /\ (forall e, error (page (runEffects envs (freshWorld a))) = Some e ->
        exists env err, In env envs
                        /\ windowDefined env = true
                        /\ Js.truthy_opt (storedToken env) = true
                        /\ fetchOutcome env = Rejected err
                        /\ e = shownMessage err)
  /\ auth (runEffects envs (freshWorld a)) = a.
Proof.
  induction envs as [| env envs IH] using rev_ind.
  - simpl. repeat split; try discriminate.
  - rewrite runEffects_snoc.
    set (w := runEffects envs (freshWorld a)) in *.
    destruct IH as (IHe & IHp & IHerr & IHa).
    assert (Hold : forall env0, In env0 envs -> In env0 (envs ++ [env]))
      by (intros env0 H0; apply in_or_app; left; exact H0).
    assert (Hnew : In env (envs ++ [env]))
      by (apply in_or_app; right; left; reflexivity).
    destruct (windowDefined env) eqn:Hwin.
    + rewrite (mountEffect_client env Hwin).
      change (page (snd (fetchProfile env w))) with (pageAfter (fetchProfile env) w).
      destruct (fetchProfile_paths env) as [Hf | [[Ht [data Hd]] | [Ht [err He]]]].
      * rewrite pageAfter_no_token by exact Hf.
        rewrite fetchProfile_no_token by exact Hf. simpl.
        repeat split; auto.
        -- intros p Hp. destruct (IHp p Hp) as (env0 & H0 & H1). eauto.
        -- intros e Hee. destruct (IHerr e Hee) as (env0 & err0 & H0 & H1).
           exists env0, err0. auto.
      * rewrite (pageAfter_resolved env w data Ht Hd).
        rewrite (fetchProfile_resolved env w data Ht Hd). simpl.
        repeat split; auto; try discriminate.
        intros p Hp. injection Hp as Hp. subst p. exists env. auto.
      * rewrite (pageAfter_rejected env w err Ht He).
        rewrite (fetchProfile_rejected env w err Ht He). simpl.
        repeat split; auto.
        -- intros H. injection H as H.
           pose proof (shownMessage_truthy err) as Htr.
           rewrite H in Htr. discriminate.
        -- intros p Hp. destruct (IHp p Hp) as (env0 & H0 & H1). eauto.
        -- intros e Hee. injection Hee as Hee. subst e.
           exists env, err. auto.
    + rewrite (mountEffect_server env w Hwin). simpl.
      repeat split; auto.
      * intros p Hp. destruct (IHp p Hp) as (env0 & H0 & H1). eauto.
      * intros e Hee. destruct (IHerr e Hee) as (env0 & err0 & H0 & H1).
        exists env0, err0. auto.
Qed.

(** * Further properties of the rendered page *)

Lemma or_else_fallsBackTo (v : option string) (d : string) :
  fallsBackTo v d (Js.or_else v d).
Proof.
  split.
  - intros [H | H]; rewrite H; reflexivity.
  - intros s H Hs. rewrite H. apply or_else_nonempty, Hs.
Qed.

Lemma texts_headerUser_loaded (st : PageState) :
  loading st = false ->
  texts (headerUser st)
  = [ Js.or_else (profile_fullName st) "User";
      Js.charAt0 (Js.or_else (profile_fullName st) "User") ].
Proof.
  intros Hl. unfold headerUser, profile_fullName. rewrite Hl.
  destruct (profile st) as [p |]; simpl; [| reflexivity].
  destruct (fullName p); reflexivity.
Qed.

(** X8. Once loading is over, the user corner of the header shows the name
    (or "User" when the name is absent or empty) and, in the avatar circle,
    [charAt(0)] of exactly that displayed name, its first UTF-16 code unit
    ("U" for "User"); when the profile panel is the body, its heading is the
    same name. *)
Theorem header_agrees_with_heading (st : PageState) :
  loading st = false ->
  exists name : string,
    fallsBackTo (option_map fullName (profile st)) "User" name
    /\ texts (headerUser st) = [ name; Js.charAt0 name ]
    /\ (error st = None -> hd "" (texts (content st)) = name).
Proof.
  intros Hl. exists (Js.or_else (profile_fullName st) "User").
  split; [apply or_else_fallsBackTo | split].
  - apply texts_headerUser_loaded, Hl.
  - intros He. unfold content. rewrite Hl, He. reflexivity.
Qed.

Lemma header_agrees_with_heading_witness :
  exists name : string,
    fallsBackTo (option_map fullName (Some lukasz)) "User" name
    /\ texts (headerUser {| profile := Some lukasz; loading := false;
                            error := None |})
       = [ name; Js.charAt0 name ]
    /\ ((None : option string) = None ->
        hd "" (texts (content {| profile := Some lukasz; loading := false;
                                 error := None |})) = name).
Proof.
  apply (header_agrees_with_heading
           {| profile := Some lukasz; loading := false; error := None |}).
  reflexivity.
Defined.

(** X7. After a failed fetch only the body turns into the error panel: the
    header goes on showing the name of the profile that was stored before
    the run ("User" when there was none or its name is empty) and, in the
    avatar circle, the first UTF-16 code unit of that name. *)
Theorem header_keeps_name_after_failure
    (env : Env) (w : World) (err : JsError) :
  Js.truthy_opt (storedToken env) = true ->
  fetchOutcome env = Rejected err ->
  exists name : string,
    fallsBackTo (option_map fullName (profile (page w))) "User" name
    /\ texts (header (pageAfter (fetchProfile env) w))
       = [ "Profile"; name; Js.charAt0 name ]
    /\ texts (content (pageAfter (fetchProfile env) w))
       = [ "Error loading profile"; shownMessage err; "Try Again" ].
Proof.
  intros Htok Hrej.
  rewrite (pageAfter_rejected env w err Htok Hrej).
  exists (Js.or_else (option_map fullName (profile (page w))) "User").
  split; [apply or_else_fallsBackTo | split].
  - unfold header. cbn [texts flat_map].
    rewrite texts_headerUser_loaded by reflexivity. reflexivity.
  - rewrite content_error
      by (apply truthy_nonempty, shownMessage_truthy).
    reflexivity.
Qed.

Lemma header_keeps_name_after_failure_witness :
  exists name : string,
    fallsBackTo (option_map fullName (Some lukasz)) "User" name
    /\ texts (header (pageAfter (fetchProfile (envRejected "Network timeout"))
                        {| page := {| profile := Some lukasz; loading := false;
                                      error := None |};
                           auth := None; events := [] |}))
       = [ "Profile"; name; Js.charAt0 name ]
    /\ texts (content (pageAfter (fetchProfile (envRejected "Network timeout"))
                         {| page := {| profile := Some lukasz; loading := false;
                                       error := None |};
                            auth := None; events := [] |}))
       = [ "Error loading profile";
           shownMessage {| message := "Network timeout" |}; "Try Again" ].
Proof.
  apply (header_keeps_name_after_failure (envRejected "Network timeout")
           {| page := {| profile := Some lukasz; loading := false; error := None |};
              auth := None; events := [] |}
           {| message := "Network timeout" |});
    reflexivity.
Defined.

(** X9. The controls of the page, in every state: the two sidebar
    navigations and Sign Out, always; the "Try Again" reload exactly when
    the body is the error panel. *)
Theorem controls_of_the_page (st : PageState) :
  handlers (render st)
  = [ GoTo "/seller/dashboard"; GoTo "/seller/history"; SignOut ]
    ++ (if showsErrorPanel st then [ ReloadPage ] else []).
Proof.
  destruct st as [p l e]. unfold showsErrorPanel, render, content. simpl.
  destruct l; simpl; [reflexivity |].
  destruct e as [msg |]; simpl; [| reflexivity].
  destruct msg; reflexivity.
Qed.

(** X10. No click handler of the page touches the view state, calls the
    profile service or shows a notification, and none throws: a failed
    load is retried by reloading the window, never by fetching again in
    place; only Sign Out changes the session. *)
Theorem clicks_never_refetch (a : Action) (w : World) :
  completionOf (click a) w = Normal tt
  /\ pageAfter (click a) w = page w
  /\ filter isFetchCall (callsDuring (click a) w) = []
  /\ filter isToast (callsDuring (click a) w) = []
  /\ (a <> SignOut -> auth (snd (click a w)) = auth w)
  /\ (a = ReloadPage -> callsDuring (click a) w = [ WindowReload ]).
Proof.
  assert (Hcalls : exists calls,
             callsDuring (click a) w = calls
             /\ filter isFetchCall calls = []
             /\ filter isToast calls = []
             /\ (a = ReloadPage -> calls = [ WindowReload ])).
  { destruct a as [path | |].
    - exists [ RouterPush path ]. repeat split; try discriminate.
      apply callsDuring_of_append. reflexivity.
    - exists [ CallLogout; RouterPush "/seller/login" ].
      repeat split; try discriminate.
      apply callsDuring_of_append. unfold eventsAfter. simpl.
      rewrite <- app_assoc. reflexivity.
    - exists [ WindowReload ]. repeat split.
      apply callsDuring_of_append. reflexivity. }
  destruct Hcalls as (calls & Hc & Hf & Ht & Hr).
  rewrite Hc.
  repeat split; try assumption.
  - destruct a; reflexivity.
  - destruct a; reflexivity.
  - intros Hne. destruct a; [reflexivity | contradiction | reflexivity].
Qed.

(** X13. The page displays four fields of the profile and no other: two
    profiles with the same full name, email, title and company name give
    the same page in every state, whatever their id, phone, website and
    location. *)
Theorem only_four_fields_are_displayed
    (p q : SellerProfile) (l : bool) (e : option string) :
  fullName p = fullName q ->
  email p = email q ->
  title p = title q ->
  companyName p = companyName q ->
  render {| profile := Some p; loading := l; error := e |}
  = render {| profile := Some q; loading := l; error := e |}.
Proof.
  intros Hn Hm Ht Hc.
  destruct p as [i1 n1 m1 ph1 t1 c1 w1 l1], q as [i2 n2 m2 ph2 t2 c2 w2 l2].
  simpl in *. subst.
  unfold render, header, headerUser, content, profilePanel,
    profile_fullName, profile_email, profile_title, profile_companyName.
  reflexivity.
Qed.

Lemma only_four_fields_are_displayed_witness :
  render {| profile := Some janeDoe; loading := false; error := None |}
  = render {| profile :=
                Some {| id := "seller-9"; fullName := "Jane Doe";
                        email := "jane@x.com"; phone := Some "555-0100";
                        title := None; companyName := None;
                        website := Some "x.com"; location := Some "Oslo" |};
              loading := false; error := None |}.
Proof.
  apply (only_four_fields_are_displayed janeDoe
           {| id := "seller-9"; fullName := "Jane Doe";
              email := "jane@x.com"; phone := Some "555-0100";
              title := None; companyName := None;
              website := Some "x.com"; location := Some "Oslo" |}
           false None);
    reflexivity.
Defined.

(** X14. The images of the page: the logo, always, and the avatar in the
    profile panel only. The avatar's alternative text is the full name, and
    "Profile" when the name is absent or empty, where the heading beside it
    falls back to "User". *)
Theorem avatar_alt_falls_back_to_Profile (st : PageState) :
  loading st = false ->
  error st = None ->
  exists alt : string,
    alts (render st) = [ "CIM Amplify Logo"; alt ]
    /\ fallsBackTo (option_map fullName (profile st)) "Profile" alt
    /\ (forall (p : option SellerProfile) (msg : string),
          msg <> "" ->
          alts (render {| profile := p; loading := false; error := Some msg |})
          = [ "CIM Amplify Logo" ])
    /\ (forall (p : option SellerProfile) (e : option string),
          alts (render {| profile := p; loading := true; error := e |})
          = [ "CIM Amplify Logo" ]).
Proof.
  intros Hl He.
  exists (Js.or_else (profile_fullName st) "Profile").
  split; [| split; [apply or_else_fallsBackTo | split]].
  - destruct st as [p l e]. simpl in Hl, He. subst. reflexivity.
  - intros p msg Hmsg. destruct msg; [contradiction | reflexivity].
  - intros p e. reflexivity.
Qed.

Lemma avatar_alt_falls_back_to_Profile_witness :
  exists alt : string,
    alts (render {| profile := Some namelessSeller; loading := false;
                    error := None |})
    = [ "CIM Amplify Logo"; alt ]
    /\ fallsBackTo (option_map fullName (Some namelessSeller)) "Profile" alt
    /\ (forall (p : option SellerProfile) (msg : string),
          msg <> "" ->
          alts (render {| profile := p; loading := false; error := Some msg |})
          = [ "CIM Amplify Logo" ])
    /\ (forall (p : option SellerProfile) (e : option string),
          alts (render {| profile := p; loading := true; error := e |})
          = [ "CIM Amplify Logo" ]).
Proof.
  apply (avatar_alt_falls_back_to_Profile
           {| profile := Some namelessSeller; loading := false; error := None |});
    reflexivity.
Defined.

(** X15. While loading is true the page shows the sidebar labels and the
    page title and nothing else: no field of a stored profile and no text
    of a stored error; and it offers no "Try Again". *)
Theorem loading_page_shows_no_data (st : PageState) :
  loading st = true ->
  texts (render st) = fixedTexts
  /\ handlers (render st)
     = [ GoTo "/seller/dashboard"; GoTo "/seller/history"; SignOut ].
Proof.
  intros Hl. destruct st as [p l e]. simpl in Hl. subst l.
  split; reflexivity.
Qed.

Lemma loading_page_shows_no_data_witness :
  texts (render {| profile := Some janeDoe; loading := true;
                   error := Some "Network timeout" |}) = fixedTexts
  /\ handlers (render {| profile := Some janeDoe; loading := true;
                         error := Some "Network timeout" |})
     = [ GoTo "/seller/dashboard"; GoTo "/seller/history"; SignOut ].
Proof.
  apply (loading_page_shows_no_data
           {| profile := Some janeDoe; loading := true;
              error := Some "Network timeout" |}).
  reflexivity.
Defined.


(** * The body on the worlds of the page *)

Lemma reachable_error_not_empty (w : World) :
  Reachable w -> error (page w) <> Some "".
Proof.
  induction 1 as [a | env w Hw IH | env w Hw IH Hwin Htok | a w Hw IH].
  - discriminate.
  - destruct (windowDefined env) eqn:Hwin.
    + rewrite (mountEffect_client env Hwin).
      exact (fetchProfile_error_not_empty env w IH).
    + rewrite (mountEffect_server env w Hwin). exact IH.
  - exact IH.
  - destruct a; exact IH.
Qed.

(** C4. In every state the page is rendered in (loading, error, profile),
    the body is exactly one of three views: the skeleton when loading is
    true, with no text in it (and the whole page is then the same whatever
    the profile state holds); the error panel when loading is false and the
    error is not null; the profile panel when loading is false and the
    error is null. The three views are different trees, so the error panel
    and the profile panel are never shown together. *)
Theorem reachable_body_is_one_of_three_views (w : World) :
  Reachable w ->
  ( (loading (page w) = true
     /\ content (page w) = skeletonPanel
     /\ texts (content (page w)) = [])
    \/ (loading (page w) = false
        /\ exists msg, error (page w) = Some msg
                       /\ content (page w) = errorPanel msg)
    \/ (loading (page w) = false
        /\ error (page w) = None
        /\ content (page w) = profilePanel (page w)) )
  /\ (forall (msg : string) (st' : PageState),
        skeletonPanel <> errorPanel msg
        /\ skeletonPanel <> profilePanel st'
        /\ errorPanel msg <> profilePanel st')
  /\ (forall (p p' : option SellerProfile) (e : option string),
        render {| profile := p; loading := true; error := e |}
        = render {| profile := p'; loading := true; error := e |}).
Proof.
  intros Hreach. apply reachable_error_not_empty in Hreach.
  split; [| split].
  - destruct (page w) as [p l e]. unfold content. simpl in *.
    destruct l; [left; auto |].
    right. destruct e as [msg |].
    + left. split; [reflexivity |]. exists msg. split; [reflexivity |].
      destruct msg; [congruence | reflexivity].
    + right. auto.
  - intros msg st'.
    split; [apply skeleton_not_error |
            split; [apply skeleton_not_profile | apply error_not_profile]].
  - intros p p' e. reflexivity.
Qed.

Lemma reachable_body_is_one_of_three_views_witness :
  ( (loading (page (snd (mountEffect (envRejected "Network timeout")
                           (freshWorld None)))) = true
     /\ content (page (snd (mountEffect (envRejected "Network timeout")
                              (freshWorld None)))) = skeletonPanel
     /\ texts (content (page (snd (mountEffect (envRejected "Network timeout")
                                     (freshWorld None))))) = [])
    \/ (loading (page (snd (mountEffect (envRejected "Network timeout")
                              (freshWorld None)))) = false
        /\ exists msg,
             error (page (snd (mountEffect (envRejected "Network timeout")
                                 (freshWorld None)))) = Some msg
             /\ content (page (snd (mountEffect (envRejected "Network timeout")
                                      (freshWorld None)))) = errorPanel msg)
    \/ (loading (page (snd (mountEffect (envRejected "Network timeout")
                              (freshWorld None)))) = false
        /\ error (page (snd (mountEffect (envRejected "Network timeout")
                               (freshWorld None)))) = None
        /\ content (page (snd (mountEffect (envRejected "Network timeout")
                                 (freshWorld None))))
           = profilePanel (page (snd (mountEffect (envRejected "Network timeout")
                                        (freshWorld None))))) )
  /\ (forall (msg : string) (st' : PageState),
        skeletonPanel <> errorPanel msg
        /\ skeletonPanel <> profilePanel st'
        /\ errorPanel msg <> profilePanel st')
  /\ (forall (p p' : option SellerProfile) (e : option string),
        render {| profile := p; loading := true; error := e |}
        = render {| profile := p'; loading := true; error := e |}).
Proof.
  apply (reachable_body_is_one_of_three_views
           (snd (mountEffect (envRejected "Network timeout") (freshWorld None)))).
  apply reach_effect, reach_mount.
Defined.
